(** * The commit-msg hook of pre-commit-hooks

    A shallow embedding of [pre_commit_hooks/commit_message_hook.py] and the
    properties of its message validation.

    The hook reads the commit message file with [readlines()], so the input of
    the model is the list of lines.  A Python [str] is a sequence of Unicode
    code points; it is modelled as a list of code points, and [len] is the
    length of that list.  Printing and [sys.exit] are modelled by a small
    monad over the frame of the function (its mutable locals) and the lines
    written to standard output. *)

From Stdlib Require Import Ascii String List NArith ZArith Bool Lia.
Import ListNotations.

Set Implicit Arguments.

(** ** Python strings *)

Definition char := N.
Definition str := list char.

(** A string literal of the source. *)
Definition py (s : string) : str :=
  List.map N_of_ascii (list_ascii_of_string s).
Arguments py s%_string.

(** The line terminator that [readlines()] leaves at the end of a line. *)
Definition LF : char := 10%N.

(** A literal followed by a newline, as in ["fix bug\n"]. *)
Definition line (s : string) : str := py s ++ [LF].
Arguments line s%_string.

(** The characters [str.strip()] removes: the interpreter's whitespace
    table (U+0009..U+000D, U+001C..U+0020, U+0085, U+00A0, U+1680,
    U+2000..U+200A, U+2028, U+2029, U+202F, U+205F, U+3000). *)
Definition isspace (c : char) : bool :=
  ((9 <=? c) && (c <=? 13) || (28 <=? c) && (c <=? 32)
   || (c =? 133) || (c =? 160) || (c =? 5760)
   || (8192 <=? c) && (c <=? 8202)
   || (c =? 8232) || (c =? 8233) || (c =? 8239) || (c =? 8287)
   || (c =? 12288))%N.

Fixpoint lstrip (s : str) : str :=
  match s with
  | [] => []
  | c :: s' => if isspace c then lstrip s' else s
  end.

Definition rstrip (s : str) : str := rev (lstrip (rev s)).

(** [s.strip()] *)
Definition strip (s : str) : str := rstrip (lstrip s).

(** [s.startswith(prefix)] *)
Fixpoint startswith (s prefix : str) : bool :=
  match prefix with
  | [] => true
  | p :: prefix' =>
      match s with
      | [] => false
      | c :: s' => (c =? p)%N && startswith s' prefix'
      end
  end.

(** [sub in s] *)
Fixpoint contains (s sub : str) : bool :=
  startswith s sub
  || match s with
     | [] => false
     | _ :: s' => contains s' sub
     end.

(** [sep.join(xs)] *)
Fixpoint join (sep : str) (xs : list str) : str :=
  match xs with
  | [] => []
  | x :: xs' =>
      match xs' with
      | [] => x
      | _ :: _ => x ++ sep ++ join sep xs'
      end
  end.

(** [s.isdigit()]: at least one character and every character a digit.
    Which code points are digits is a table of the interpreter's Unicode
    database; it is a parameter [digit] of the model. *)
Definition isdigit (digit : char -> bool) (s : str) : bool :=
  match s with
  | [] => false
  | _ :: _ => forallb digit s
  end.

(** The ASCII part of the digit table, used to run the model. *)
Definition ascii_digit (c : char) : bool := ((48 <=? c) && (c <=? 57))%N.

(** ** Output, frame and control *)

(** [class Level(str, Enum)] *)
Inductive Level : Set := OK | INFO | WARNING | ERROR.

(** One call of [print].  [print_with_color(message, level)] writes the
    message wrapped in the colour of its level and the ["<level>: [Policy] "]
    label; it is kept as the pair it was called with.  A bare [print(x)]
    writes the text of [x]. *)
Inductive Output : Type :=
| Colored (level : Level) (message : str)
| Plain (text : str).

(** The mutable locals of [check_commit_msg_pattern] that are assigned more
    than once, and what has been written to standard output so far. *)
Record Frame : Type := mkFrame {
  stdout : list Output;
  has_warning : bool;
  has_story_id : bool;
  valid_issue_tracker_tool_with_suffix : option str
}.

Definition initial : Frame :=
  {| stdout := [];
     has_warning := false;
     has_story_id := false;
     valid_issue_tracker_tool_with_suffix := None |}.

(** How a piece of code ends: it falls through with a value, [sys.exit(code)]
    raised [SystemExit], or an index was out of range. *)
Inductive Res (A : Type) : Type :=
| Normal (a : A) (fr : Frame)
| SystemExit (code : Z) (fr : Frame)
| IndexError (fr : Frame).
Arguments SystemExit {A} code fr.
Arguments IndexError {A} fr.

Definition Hook (A : Type) : Type := Frame -> Res A.

Definition ret {A} (a : A) : Hook A := fun fr => Normal a fr.

Definition bind {A B} (c : Hook A) (k : A -> Hook B) : Hook B :=
  fun fr =>
    match c fr with
    | Normal a fr' => k a fr'
    | SystemExit code fr' => SystemExit code fr'
    | IndexError fr' => IndexError fr'
    end.

Notation "x <- c ;; k" := (bind c (fun x => k))
  (at level 61, c at next level, right associativity).
Notation "c ;; k" := (bind c (fun _ => k))
  (at level 61, right associativity).

(** [sys.exit(code)] *)
Definition sys_exit (code : Z) : Hook unit := fun fr => SystemExit code fr.

Definition emit (o : Output) (fr : Frame) : Frame :=
  {| stdout := stdout fr ++ [o];
     has_warning := has_warning fr;
     has_story_id := has_story_id fr;
     valid_issue_tracker_tool_with_suffix :=
       valid_issue_tracker_tool_with_suffix fr |}.

Definition print_with_color (message : str) (level : Level) : Hook unit :=
  fun fr => Normal tt (emit (Colored level message) fr).

(** [print(x)] for [x] a string or [None]. *)
Definition print (x : option str) : Hook unit :=
  fun fr =>
    Normal tt (emit (Plain match x with
                           | Some s => s
                           | None => py "None"
                           end) fr).

Definition with_has_warning (b : bool) (fr : Frame) : Frame :=
  {| stdout := stdout fr;
     has_warning := b;
     has_story_id := has_story_id fr;
     valid_issue_tracker_tool_with_suffix :=
       valid_issue_tracker_tool_with_suffix fr |}.

Definition with_has_story_id (b : bool) (fr : Frame) : Frame :=
  {| stdout := stdout fr;
     has_warning := has_warning fr;
     has_story_id := b;
     valid_issue_tracker_tool_with_suffix :=
       valid_issue_tracker_tool_with_suffix fr |}.

Definition with_tool_with_suffix (v : option str) (fr : Frame) : Frame :=
  {| stdout := stdout fr;
     has_warning := has_warning fr;
     has_story_id := has_story_id fr;
     valid_issue_tracker_tool_with_suffix := v |}.

Definition set_has_warning (b : bool) : Hook unit :=
  fun fr => Normal tt (with_has_warning b fr).

Definition set_has_story_id (b : bool) : Hook unit :=
  fun fr => Normal tt (with_has_story_id b fr).

Definition set_tool_with_suffix (v : option str) : Hook unit :=
  fun fr => Normal tt (with_tool_with_suffix v fr).

Definition get_has_warning : Hook bool :=
  fun fr => Normal (has_warning fr) fr.

Definition get_has_story_id : Hook bool :=
  fun fr => Normal (has_story_id fr) fr.

Definition get_tool_with_suffix : Hook (option str) :=
  fun fr => Normal (valid_issue_tracker_tool_with_suffix fr) fr.

(** [xs[i]] for [i >= 0] *)
Definition index (xs : list str) (i : nat) : Hook str :=
  fun fr =>
    match nth_error xs i with
    | Some x => Normal x fr
    | None => IndexError fr
    end.

(** [if b: c] *)
Definition when (b : bool) (c : Hook unit) : Hook unit :=
  if b then c else ret tt.

(** [for x in xs: body] *)
Fixpoint for_in {A} (xs : list A) (body : A -> Hook unit) : Hook unit :=
  match xs with
  | [] => ret tt
  | x :: xs' => body x ;; for_in xs' body
  end.

(** ** The hook *)

(** The texts passed to [print_with_color]. *)

Definition valid_commit_types : list str :=
  [py "feat"; py "fix"; py "refactor"; py "style";
   py "docs"; py "test"; py "chore"; py "revert"].

Definition valid_issue_tracker_tools : list str :=
  [py "jira"; py "github"; py "gitlab"; py "bitbucket";
   py "launchpad"; py "zendesk"].

Definition valid_issue_tracker_tools_short_names : list str :=
  [py "jr"; py "gh"; py "gl"; py "bb"; py "lp"; py "zd"].

Definition valid_issue_tracker_suffixes : list str :=
  [py ":"; py "/"; py "#"; py "-"; py " "].

Definition lines_message : str :=
  py "There should at least 4 lines in your commit message.".

Definition title_message : str :=
  py "There should be less then 50 characters in the commit title.".

Definition commit_type_message : str :=
  py "The commit title needs to have a commit type: "
  ++ join (py ", ") valid_commit_types.

Definition tracker_reference_message : str :=
  py "The commit title needs to have a issue track tool code and number type: "
  ++ join (py ", ") valid_commit_types.

Definition separator_message : str :=
  py "There should be an empty line between the commit title and body.".

Definition wrap_message : str :=
  py "The commit body should wrap at 72 characters.".

Definition story_message : str :=
  py "Please add a Story ID in the commit message.".

Definition pattern_message : str :=
  py "The commit message has the required pattern.".

(** Line 59: the comment lines are removed from the message. *)
Definition is_comment (l : str) : bool := startswith (strip l) (py "#").

Definition strip_comments (commit_message : list str) : list str :=
  filter (fun l => negb (is_comment l)) commit_message.

(** Line 79: [any(title.startswith(commit_type) for commit_type in ...)] *)
Definition has_commit_type (title : str) : bool :=
  existsb (fun commit_type => startswith title commit_type) valid_commit_types.

(** Lines 90 to 95: the loop over the names of the issue trackers. *)
Definition tracker_tool_loop (title : str) : Hook unit :=
  for_in valid_issue_tracker_tools (fun valid_issue_tracker_tool =>
    when (startswith title valid_issue_tracker_tool) (
      set_has_warning true ;;
      print_with_color commit_type_message WARNING ;;
      sys_exit 1)).

(** Lines 98 to 106: every name, then every short name, with every suffix. *)
Definition valid_issue_tracker_tools_with_suffixes : list str :=
  flat_map (fun valid_issue_tracker_tool =>
              List.map (fun valid_issue_tracker_suffix =>
                          valid_issue_tracker_tool ++ valid_issue_tracker_suffix)
                       valid_issue_tracker_suffixes)
           valid_issue_tracker_tools
  ++ flat_map (fun valid_issue_tracker_tool_short_name =>
                 List.map (fun valid_issue_tracker_suffix =>
                             valid_issue_tracker_tool_short_name
                             ++ valid_issue_tracker_suffix)
                          valid_issue_tracker_suffixes)
              valid_issue_tracker_tools_short_names.

(** Messages the properties below are run on: the two examples of the
    specification and two titles with a tracker reference after the type. *)
Definition example_login : list str :=
  [line "feat: add login"; line ""; line "implements oauth [#123]"; line ""].

Definition example_fix_bug : list str :=
  [line "fix bug"; line "body text"; line ""; line ""].

Definition example_reference_digits : list str :=
  [line "featgh#123"; line ""; line "body [#1]"; line ""].

Definition example_reference_letters : list str :=
  [line "featgh#abc"; line ""; line "body [#1]"; line ""].

(** Two strings that can both be a prefix of one string: they begin with
    the same character, or one of them is empty. *)
Definition same_initial (a b : str) : bool :=
  match a, b with
  | x :: _, y :: _ => (x =? y)%N
  | _, _ => true
  end.

(** What [title_checks] writes, read off its four exits. *)
Definition first_report (file_lines : list str) : Output :=
  let commit_message := strip_comments file_lines in
  if (length commit_message <? 4)%nat then Colored ERROR lines_message
  else
    let title := nth 0 commit_message [] in
    if (50 <? length title)%nat then Colored WARNING title_message
    else if has_commit_type title then Plain (py "zd ")
    else Colored WARNING commit_type_message.

(** ** The text of a coloured line *)

(** The escape character of the ANSI sequences. *)
Definition ESC : char := 27%N.

(** [class Bcolors(str, Enum)]: the members, by name. *)
Definition Bcolors : list (str * str) :=
  [(py "OK", ESC :: py "[92m");
   (py "INFO", ESC :: py "[94m");
   (py "WARNING", ESC :: py "[93m");
   (py "ERROR", ESC :: py "[91m");
   (py "BOLD", ESC :: py "[1m");
   (py "ENDC", ESC :: py "[0m")].

(** The value of a member of [Level], the string it is as a [str]. *)
Definition Level_value (level : Level) : str :=
  match level with
  | OK => py "OK"
  | INFO => py "INFO"
  | WARNING => py "WARNING"
  | ERROR => py "ERROR"
  end.

Fixpoint str_eqb (a b : str) : bool :=
  match a, b with
  | [], [] => true
  | x :: a', y :: b' => (x =? y)%N && str_eqb a' b'
  | _, _ => false
  end.

(** [Bcolors[name]]: the member of that name, [None] for the [KeyError]. *)
Fixpoint Bcolors_getitem (members : list (str * str)) (name : str)
  : option str :=
  match members with
  | [] => None
  | (n, v) :: members' =>
      if str_eqb n name then Some v else Bcolors_getitem members' name
  end.

(** Lines 37 to 43: the argument of [print] in [print_with_color], [None]
    when the lookup of the colour fails.  How [f"{level}"] spells a member of
    [Level] depends on the version of the interpreter (its value, or the
    class name, a dot and the name); it is the parameter [level_text]. *)
Definition colored_text (level_text : Level -> str) (message : str)
           (level : Level) : option str :=
  match Bcolors_getitem Bcolors (Level_value level),
        Bcolors_getitem Bcolors (py "BOLD"),
        Bcolors_getitem Bcolors (py "ENDC") with
  | Some color, Some bold, Some endc =>
      Some (color ++ bold ++ (level_text level ++ py ": [Policy] ")
            ++ message ++ endc)
  | _, _, _ => None
  end.

(** Whether a piece of code fell through to the next statement. *)
Definition returns (A : Type) (r : Res A) : bool :=
  match r with
  | Normal _ _ => true
  | _ => false
  end.

Section Validator.

(** The digit table of [str.isdigit]. *)
Variable digit : char -> bool.

(** Lines 109 to 116: the loop over the names with suffixes.  Its loop
    variable is read again after the loop, so it lives in the frame. *)
Definition tracker_reference_loop (title : str) : Hook unit :=
  set_tool_with_suffix None ;;
  for_in valid_issue_tracker_tools_with_suffixes (fun tool_with_suffix =>
    set_tool_with_suffix (Some tool_with_suffix) ;;
    when (startswith title tool_with_suffix) (
      when (negb (isdigit digit (skipn (length tool_with_suffix) title))) (
        set_has_warning true ;;
        print_with_color tracker_reference_message WARNING ;;
        sys_exit 1))).

(** Lines 52 to 119 of [check_commit_msg_pattern], from reading the message
    to the [print] and [sys.exit(1)] that follow the last loop.  The value is
    the message without its comment lines. *)
Definition title_checks (file_lines : list str) : Hook (list str) :=
  let commit_message := strip_comments file_lines in
  set_has_warning false ;;
  when (length commit_message <? 4)%nat (
    print_with_color lines_message ERROR ;;
    sys_exit 1) ;;
  title <- index commit_message 0 ;;
  when (50 <? length title)%nat (
    set_has_warning true ;;
    print_with_color title_message WARNING ;;
    sys_exit 1) ;;
  when (negb (has_commit_type title)) (
    set_has_warning true ;;
    print_with_color commit_type_message WARNING ;;
    sys_exit 1) ;;
  tracker_tool_loop title ;;
  tracker_reference_loop title ;;
  last_tool <- get_tool_with_suffix ;;
  print last_tool ;;
  sys_exit 1 ;;
  ret commit_message.

(** Lines 127 to 153 of [check_commit_msg_pattern]: the separator, the body
    lines, the story ID and the closing report. *)
Definition body_checks (commit_message : list str) : Hook unit :=
  second <- index commit_message 1 ;;
  when (negb (match strip second with [] => true | _ :: _ => false end)) (
    set_has_warning true ;;
    print_with_color separator_message WARNING ;;
    sys_exit 1) ;;
  set_has_story_id false ;;
  for_in (skipn 2 commit_message) (fun l =>
    when (72 <? length l)%nat (
      set_has_warning true ;;
      print_with_color wrap_message WARNING ;;
      sys_exit 1) ;;
    when (contains l (py "[#")) (set_has_story_id true)) ;;
  story <- get_has_story_id ;;
  when (negb story) (
    print_with_color story_message WARNING ;;
    sys_exit 1) ;;
  warned <- get_has_warning ;;
  when (negb warned) (print_with_color pattern_message OK).

Definition check_commit_msg_pattern (file_lines : list str) : Hook unit :=
  commit_message <- title_checks file_lines ;;
  body_checks commit_message.

(** [main]: runs the check and returns 0. *)
Definition main (file_lines : list str) : Hook Z :=
  check_commit_msg_pattern file_lines ;;
  ret 0%Z.

(** [raise SystemExit(main())]: what the process wrote and its exit status.
    An exception that nothing catches ends the process with status 1. *)
Definition script (file_lines : list str) : list Output * Z :=
  match main file_lines initial with
  | Normal code fr => (stdout fr, code)
  | SystemExit code fr => (stdout fr, code)
  | IndexError fr => (stdout fr, 1%Z)
  end.

(** ** Properties of the string operations and of the loops *)

Lemma startswith_same_initial (s a b : str) :
  startswith s a = true -> startswith s b = true -> same_initial a b = true.
Proof.
  destruct a as [|x a'], b as [|y b']; simpl; try reflexivity.
  destruct s as [|c s']; simpl; try discriminate.
  intros Ha Hb.
  apply andb_prop in Ha as [Ha _]. apply andb_prop in Hb as [Hb _].
  apply N.eqb_eq in Ha, Hb. subst. apply N.eqb_refl.
Qed.

(** No commit type begins with the character a tracker name, or a tracker
    name with a suffix, begins with. *)
Lemma types_and_trackers_differ :
  forallb (fun commit_type =>
             forallb (fun tool => negb (same_initial commit_type tool))
                     (valid_issue_tracker_tools
                      ++ valid_issue_tracker_tools_with_suffixes))
          valid_commit_types = true.
Proof. vm_compute. reflexivity. Qed.

Lemma typed_title_has_no_tracker_prefix (title tool : str) :
  has_commit_type title = true ->
  In tool (valid_issue_tracker_tools
           ++ valid_issue_tracker_tools_with_suffixes) ->
  startswith title tool = false.
Proof.
  intros Hty Hin.
  apply existsb_exists in Hty as [commit_type [Hct Hpre]].
  pose proof types_and_trackers_differ as D.
  rewrite forallb_forall in D. specialize (D _ Hct).
  rewrite forallb_forall in D. specialize (D _ Hin).
  destruct (startswith title tool) eqn:E; [|reflexivity].
  rewrite (startswith_same_initial _ _ _ Hpre E) in D. discriminate.
Qed.

Lemma for_in_when_false (A : Type) (xs : list A) (cond : A -> bool)
      (c : A -> Hook unit) (fr : Frame) :
  (forall x, In x xs -> cond x = false) ->
  for_in xs (fun x => when (cond x) (c x)) fr = Normal tt fr.
Proof.
  induction xs as [|x xs IH]; intros H; simpl.
  - reflexivity.
  - unfold bind. rewrite (H x) by (left; reflexivity). simpl.
    apply IH. intros y Hy. apply H. right. exact Hy.
Qed.

Lemma last_nonempty (A : Type) (a : A) (l : list A) (d d' : A) :
  last (a :: l) d = last (a :: l) d'.
Proof.
  revert a. induction l as [|b l IH]; intros a.
  - reflexivity.
  - change (last (b :: l) d = last (b :: l) d'). apply IH.
Qed.

(** A loop that only assigns its loop variable leaves the last element in
    it. *)
Lemma for_in_assign_when_false (xs : list str) (cond : str -> bool)
      (c : str -> Hook unit) (fr : Frame) :
  (forall x, In x xs -> cond x = false) ->
  for_in xs (fun x => set_tool_with_suffix (Some x) ;; when (cond x) (c x)) fr
  = Normal tt
      (with_tool_with_suffix
         (last (List.map Some xs) (valid_issue_tracker_tool_with_suffix fr))
         fr).
Proof.
  revert fr. induction xs as [|x xs IH]; intros fr H.
  - destruct fr; reflexivity.
  - cbn [for_in]. unfold bind at 1. unfold bind at 1.
    cbn [set_tool_with_suffix].
    rewrite (H x) by (left; reflexivity). cbn [when ret].
    rewrite IH by (intros y Hy; apply H; right; exact Hy).
    destruct xs as [|y ys]; [reflexivity|].
    change (last (List.map Some (x :: y :: ys))
                 (valid_issue_tracker_tool_with_suffix fr))
      with (last (Some y :: List.map Some ys)
                 (valid_issue_tracker_tool_with_suffix fr)).
    cbn [List.map].
    rewrite (last_nonempty (Some y) (List.map Some ys)
               (valid_issue_tracker_tool_with_suffix
                  (with_tool_with_suffix (Some x) fr))
               (valid_issue_tracker_tool_with_suffix fr)).
    reflexivity.
Qed.

Lemma tracker_tool_loop_typed (title : str) (fr : Frame) :
  has_commit_type title = true ->
  tracker_tool_loop title fr = Normal tt fr.
Proof.
  intros Hty. unfold tracker_tool_loop.
  apply for_in_when_false with (cond := fun tool => startswith title tool).
  intros tool Hin. apply typed_title_has_no_tracker_prefix; [exact Hty|].
  apply in_or_app. left. exact Hin.
Qed.

Lemma tracker_reference_loop_typed (title : str) (fr : Frame) :
  has_commit_type title = true ->
  tracker_reference_loop title fr
  = Normal tt (with_tool_with_suffix (Some (py "zd ")) fr).
Proof.
  intros Hty. unfold tracker_reference_loop, bind at 1.
  cbn [set_tool_with_suffix].
  rewrite for_in_assign_when_false
    with (cond := fun tool => startswith title tool).
  - destruct fr; reflexivity.
  - intros tool Hin. apply typed_title_has_no_tracker_prefix; [exact Hty|].
    apply in_or_app. right. exact Hin.
Qed.

(** Every path through lines 52 to 119 ends in [sys.exit(1)] after exactly one
    [print]. *)
Lemma title_checks_exits (file_lines : list str) (fr : Frame) :
  exists fr',
    title_checks file_lines fr = SystemExit 1 fr'
    /\ stdout fr' = stdout fr ++ [first_report file_lines].
Proof.
  unfold title_checks, first_report.
  set (commit_message := strip_comments file_lines).
  unfold bind at 1. cbn [set_has_warning].
  unfold bind at 1.
  destruct (length commit_message <? 4)%nat eqn:Hlen; cbn [when].
  - eexists. split; reflexivity.
  - destruct commit_message as [|title rest]; [discriminate Hlen|].
    cbn [ret]. unfold bind at 1. cbn [index nth_error nth].
    unfold bind at 1.
    destruct (50 <? length title)%nat eqn:Htitle; cbn [when].
    + eexists. split; reflexivity.
    + cbn [ret]. unfold bind at 1.
      destruct (has_commit_type title) eqn:Hty; cbn [negb when].
      * cbn [ret]. unfold bind at 1.
        rewrite tracker_tool_loop_typed by exact Hty.
        unfold bind at 1.
        rewrite tracker_reference_loop_typed by exact Hty.
        eexists. split; reflexivity.
      * eexists. split; reflexivity.
Qed.

Lemma title_checks_then (B : Type) (k : list str -> Hook B)
      (file_lines : list str) (fr : Frame) :
  exists fr',
    bind (title_checks file_lines) k fr = SystemExit 1 fr'
    /\ stdout fr' = stdout fr ++ [first_report file_lines].
Proof.
  destruct (title_checks_exits file_lines fr) as [fr' [E Hout]].
  exists fr'. unfold bind. rewrite E. split; [reflexivity | exact Hout].
Qed.

Lemma script_first_report (file_lines : list str) :
  script file_lines = ([first_report file_lines], 1%Z).
Proof.
  unfold script, main, check_commit_msg_pattern.
  destruct (title_checks_then (fun commit_message => body_checks commit_message)
              file_lines initial) as [fr' [E Hout]].
  unfold bind at 1. rewrite E. rewrite Hout. reflexivity.
Qed.

Lemma filter_twice (A : Type) (f : A -> bool) (l : list A) :
  filter f (filter f l) = filter f l.
Proof.
  induction l as [|a l IH]; simpl.
  - reflexivity.
  - destruct (f a) eqn:E; simpl.
    + rewrite E, IH. reflexivity.
    + exact IH.
Qed.

Lemma first_report_long_message (file_lines : list str) (title : str)
      (rest : list str) :
  strip_comments file_lines = title :: rest ->
  4 <= length (title :: rest) ->
  first_report file_lines
  = if (50 <? length title)%nat then Colored WARNING title_message
    else if has_commit_type title then Plain (py "zd ")
    else Colored WARNING commit_type_message.
Proof.
  intros Hcm Hlen. unfold first_report. rewrite Hcm.
  replace (length (title :: rest) <? 4)%nat with false
    by (symmetry; apply Nat.ltb_ge; exact Hlen).
  reflexivity.
Qed.

(** ** The claims *)

(** C1.  A message with at least four lines after the comments are removed,
    a title of at most 50 characters and a title that starts with a commit
    type reaches the end of the loop over the 60 tracker tokens: the hook
    prints the loop variable, which holds the last token ["zd "], and leaves
    with status 1.  Whatever code follows line 119 is not run: the outcome is
    the same for every continuation, so the separator check, the body length
    check and the story ID check are never executed.  (That the title passes
    the tracker checks follows from its commit type and needs no
    hypothesis.) *)
Theorem tracker_loop_end_exits (file_lines : list str) (title : str)
        (rest : list str) :
  strip_comments file_lines = title :: rest ->
  4 <= length (title :: rest) ->
  length title <= 50 ->
  has_commit_type title = true ->
  script file_lines = ([Plain (py "zd ")], 1%Z)
  /\ forall (B : Type) (k : list str -> Hook B) (fr : Frame),
       exists fr',
         bind (title_checks file_lines) k fr = SystemExit 1 fr'
         /\ stdout fr' = stdout fr ++ [Plain (py "zd ")].
Proof.
  intros Hcm Hlen Htitle Hty.
  assert (R : first_report file_lines = Plain (py "zd ")).
  { rewrite (first_report_long_message _ Hcm Hlen).
    replace (50 <? length title)%nat with false
      by (symmetry; apply Nat.ltb_ge; exact Htitle).
    rewrite Hty. reflexivity. }
  split.
  - rewrite script_first_report, R. reflexivity.
  - intros B k fr. rewrite <- R. apply title_checks_then.
Qed.

(** C2.  On the first example of the specification the hook does not report
    that the message has the required pattern and does not leave with status
    0: it prints ["zd "] and leaves with status 1.  The checks of lines 127
    to 153, run on the same message, do end normally with the OK report. *)
Theorem example_login_exits_1 :
  script example_login = ([Plain (py "zd ")], 1%Z)
  /\ body_checks (strip_comments example_login) initial
     = Normal tt (emit (Colored OK pattern_message)
                       (with_has_story_id true initial)).
Proof. split; vm_compute; reflexivity. Qed.

(** C3.  For the title ["featgh#123"], a commit type followed by a tracker
    token and digits, the loop of lines 109 to 116 reports nothing, but the
    hook then prints ["zd "] and leaves with status 1 instead of going on to
    the separator check. *)
Theorem example_reference_digits_exits_1 :
  script example_reference_digits = ([Plain (py "zd ")], 1%Z).
Proof. vm_compute. reflexivity. Qed.

(** C4.  For the title ["featgh#abc"], a commit type followed by a tracker
    token and letters, the hook does not report the malformed tracker
    reference: it prints ["zd "] and leaves with status 1. *)
Theorem example_reference_letters_no_warning :
  script example_reference_letters = ([Plain (py "zd ")], 1%Z)
  /\ ~ In (Colored WARNING tracker_reference_message)
          (fst (script example_reference_letters)).
Proof.
  split; [vm_compute; reflexivity|].
  vm_compute. intros [H|[]]. discriminate H.
Qed.

(** C5.  On the second example of the specification the hook does not report
    the missing blank line: it prints ["zd "] and leaves with status 1.  The
    checks of lines 127 to 153, run on the same message, do report it. *)
Theorem example_fix_bug_exits_1 :
  script example_fix_bug = ([Plain (py "zd ")], 1%Z)
  /\ body_checks (strip_comments example_fix_bug) initial
     = SystemExit 1 (emit (Colored WARNING separator_message)
                          (with_has_warning true initial)).
Proof. split; vm_compute; reflexivity. Qed.

(** C6.  When fewer than four lines are left after the comment lines are
    removed, the hook prints the ERROR about the four lines, and nothing
    else, and leaves with status 1; no later check runs, whatever code
    follows. *)
Theorem short_message_error (file_lines : list str) :
  length (strip_comments file_lines) < 4 ->
  script file_lines = ([Colored ERROR lines_message], 1%Z)
  /\ forall (B : Type) (k : list str -> Hook B) (fr : Frame),
       exists fr',
         bind (title_checks file_lines) k fr = SystemExit 1 fr'
         /\ stdout fr' = stdout fr ++ [Colored ERROR lines_message].
Proof.
  intros Hlen.
  assert (R : first_report file_lines = Colored ERROR lines_message).
  { unfold first_report.
    replace (length (strip_comments file_lines) <? 4)%nat with true
      by (symmetry; apply Nat.ltb_lt; exact Hlen).
    reflexivity. }
  split.
  - rewrite script_first_report, R. reflexivity.
  - intros B k fr. rewrite <- R. apply title_checks_then.
Qed.

(** C7.  With at least four lines left and a title of at most 50 characters,
    a title that starts with none of the eight commit types gets the WARNING
    that names the commit types, and the hook leaves with status 1; this
    holds whether or not the title starts with a tracker name.  In
    particular every title that begins with ["gh#456"] gets that WARNING. *)
Theorem missing_commit_type_warning :
  (forall (file_lines : list str) (title : str) (rest : list str),
      strip_comments file_lines = title :: rest ->
      4 <= length (title :: rest) ->
      length title <= 50 ->
      has_commit_type title = false ->
      script file_lines = ([Colored WARNING commit_type_message], 1%Z))
  /\ (forall (file_lines : list str) (tail : str) (rest : list str),
         strip_comments file_lines = (py "gh#456" ++ tail) :: rest ->
         3 <= length rest ->
         length tail <= 44 ->
         script file_lines = ([Colored WARNING commit_type_message], 1%Z)).
Proof.
  assert (G : forall (file_lines : list str) (title : str) (rest : list str),
             strip_comments file_lines = title :: rest ->
             4 <= length (title :: rest) ->
             length title <= 50 ->
             has_commit_type title = false ->
             script file_lines = ([Colored WARNING commit_type_message], 1%Z)).
  { intros file_lines title rest Hcm Hlen Htitle Hty.
    rewrite script_first_report, (first_report_long_message _ Hcm Hlen).
    replace (50 <? length title)%nat with false
      by (symmetry; apply Nat.ltb_ge; exact Htitle).
    rewrite Hty. reflexivity. }
  split; [exact G|].
  intros file_lines tail rest Hcm Hrest Htail.
  apply (G file_lines (py "gh#456" ++ tail) rest Hcm).
  - simpl. lia.
  - rewrite length_app. simpl. lia.
  - reflexivity.
Qed.

(** C8, as amended.  With at least four lines left, the WARNING about the
    title length is printed exactly when the first line, counted as
    [readlines()] returned it, with its newline, is longer than 50
    characters, and then it is the only output and the hook leaves with
    status 1.  For a title [t] followed by its newline that is when [t] has
    50 characters or more: a title of at most 49 characters passes the check
    of line 70 without that WARNING, a title of exactly 50 does not. *)
Theorem title_length_warning_iff (file_lines : list str) (title : str)
        (rest : list str) :
  strip_comments file_lines = title :: rest ->
  4 <= length (title :: rest) ->
  (In (Colored WARNING title_message) (fst (script file_lines))
   <-> 50 < length title)
  /\ (50 < length title ->
      script file_lines = ([Colored WARNING title_message], 1%Z))
  /\ (forall t : str,
         title = t ++ [LF] ->
         (In (Colored WARNING title_message) (fst (script file_lines))
          <-> 50 <= length t)).
Proof.
  intros Hcm Hlen.
  rewrite script_first_report, (first_report_long_message _ Hcm Hlen).
  destruct (50 <? length title)%nat eqn:E.
  - apply Nat.ltb_lt in E. split; [|split].
    + split; [intros _; exact E | intros _; left; reflexivity].
    + intros _. reflexivity.
    + intros t Ht. split; [intros _ | intros _; left; reflexivity].
      rewrite Ht, length_app in E. cbn [length] in E. lia.
  - apply Nat.ltb_ge in E. split; [|split].
    + split; [|lia].
      cbn [fst]. intros [H|[]]. exfalso.
      destruct (has_commit_type title); vm_compute in H; discriminate H.
    + lia.
    + intros t Ht. split.
      * cbn [fst]. intros [H|[]]. exfalso.
        destruct (has_commit_type title); vm_compute in H; discriminate H.
      * intros H50. rewrite Ht, length_app in E. cbn [length] in E. lia.
Qed.

(** C9.  Removing the comment lines is idempotent. *)
Theorem strip_comments_idempotent (file_lines : list str) :
  strip_comments (strip_comments file_lines) = strip_comments file_lines.
Proof. unfold strip_comments. apply filter_twice. Qed.

(** C10.  The WARNING of the loop over the tracker names (lines 90 to 95) and
    the WARNING of the loop over the tracker tokens (lines 109 to 116) are
    never printed.  Both loops test a prefix of the title, they run only for
    a title that starts with a commit type, and such a title starts with no
    tracker name and no tracker token: both loops fall through without
    output.  For every input, the text of the second WARNING is not in the
    output, and the text the first WARNING shares with the missing commit
    type WARNING is printed only for a title without a commit type, that is,
    by line 82. *)
Theorem tracker_warnings_unreachable :
  (forall (title : str) (fr : Frame),
      has_commit_type title = true ->
      (forall tool,
          In tool (valid_issue_tracker_tools
                   ++ valid_issue_tracker_tools_with_suffixes) ->
          startswith title tool = false)
      /\ tracker_tool_loop title fr = Normal tt fr
      /\ tracker_reference_loop title fr
         = Normal tt (with_tool_with_suffix (Some (py "zd ")) fr))
  /\ (forall file_lines : list str,
         ~ In (Colored WARNING tracker_reference_message)
              (fst (script file_lines)))
  /\ (forall file_lines : list str,
         In (Colored WARNING commit_type_message) (fst (script file_lines)) ->
         4 <= length (strip_comments file_lines)
         /\ has_commit_type (nth 0 (strip_comments file_lines) []) = false).
Proof.
  split; [|split].
  - intros title fr Hty. split; [|split].
    + intros tool Hin. apply typed_title_has_no_tracker_prefix; assumption.
    + apply tracker_tool_loop_typed. exact Hty.
    + apply tracker_reference_loop_typed. exact Hty.
  - intros file_lines. rewrite script_first_report. cbn [fst].
    intros [H|[]]. unfold first_report in H.
    destruct (length (strip_comments file_lines) <? 4)%nat;
      [vm_compute in H; discriminate H|].
    destruct (50 <? length (nth 0 (strip_comments file_lines) []))%nat;
      [vm_compute in H; discriminate H|].
    destruct (has_commit_type (nth 0 (strip_comments file_lines) []));
      vm_compute in H; discriminate H.
  - intros file_lines. rewrite script_first_report. cbn [fst].
    intros [H|[]]. unfold first_report in H.
    destruct (length (strip_comments file_lines) <? 4)%nat eqn:Hlen;
      [vm_compute in H; discriminate H|].
    apply Nat.ltb_ge in Hlen. split; [exact Hlen|].
    destruct (50 <? length (nth 0 (strip_comments file_lines) []))%nat;
      [vm_compute in H; discriminate H|].
    destruct (has_commit_type (nth 0 (strip_comments file_lines) []));
      [vm_compute in H; discriminate H | reflexivity].
Qed.

(** The length that line 70 compares with 50 is the length of the line as
    [readlines()] returned it, its newline included: fifty characters
    followed by a newline are 51. *)
Remark fifty_characters_and_newline :
  script [line "feat: 0123456789012345678901234567890123456789abcd";
          line ""; line "body [#1]"; line ""]
  = ([Colored WARNING title_message], 1%Z).
Proof. vm_compute. reflexivity. Qed.

(** ** Further properties of the string operations *)

Lemma startswith_iff (s p : str) :
  startswith s p = true <-> exists t, s = p ++ t.
Proof.
  revert s. induction p as [|x p IH]; intros s; simpl.
  - split; [intros _; exists s; reflexivity | intros _; destruct s; reflexivity].
  - destruct s as [|c s'].
    + split; [discriminate | intros [t Ht]; discriminate Ht].
    + split.
      * intros H. apply andb_prop in H as [Hc Hp].
        apply N.eqb_eq in Hc. apply IH in Hp as [t Ht].
        exists t. subst. reflexivity.
      * intros [t Ht]. injection Ht as Hc Hs.
        apply andb_true_intro. split.
        -- apply N.eqb_eq. exact Hc.
        -- apply IH. exists t. exact Hs.
Qed.

Lemma lstrip_split (s : str) :
  exists ws, s = ws ++ lstrip s /\ forallb isspace ws = true.
Proof.
  induction s as [|c s [ws [Hs Hws]]]; simpl.
  - exists []. split; reflexivity.
  - destruct (isspace c) eqn:E.
    + exists (c :: ws). simpl. rewrite E, Hws. split; [|reflexivity].
      f_equal. exact Hs.
    + exists []. split; reflexivity.
Qed.

Lemma lstrip_head (s : str) (c : char) (r : str) :
  lstrip s = c :: r -> isspace c = false.
Proof.
  induction s as [|a s IH]; simpl.
  - discriminate.
  - destruct (isspace a) eqn:E.
    + exact IH.
    + intros H. injection H as Ha _. subst. exact E.
Qed.

Lemma lstrip_spaces (ws s : str) :
  forallb isspace ws = true -> lstrip (ws ++ s) = lstrip s.
Proof.
  induction ws as [|a ws IH]; simpl.
  - reflexivity.
  - intros H. apply andb_prop in H as [Ha Hws]. rewrite Ha. apply IH, Hws.
Qed.

Lemma lstrip_snoc (s : str) (c : char) :
  isspace c = false -> lstrip (s ++ [c]) = lstrip s ++ [c].
Proof.
  intros Hc. induction s as [|a s IH]; simpl.
  - rewrite Hc. reflexivity.
  - destruct (isspace a); [exact IH | reflexivity].
Qed.

Lemma rstrip_cons (c : char) (s : str) :
  isspace c = false -> rstrip (c :: s) = c :: rstrip s.
Proof.
  intros Hc. unfold rstrip. simpl rev at 2.
  rewrite lstrip_snoc by exact Hc. rewrite rev_app_distr. reflexivity.
Qed.

Lemma lstrip_nil_iff (s : str) :
  lstrip s = [] <-> forallb isspace s = true.
Proof.
  induction s as [|a s IH]; simpl.
  - split; reflexivity.
  - destruct (isspace a); simpl.
    + exact IH.
    + split; discriminate.
Qed.

Lemma strip_nil_iff (s : str) :
  strip s = [] <-> forallb isspace s = true.
Proof.
  unfold strip. rewrite <- lstrip_nil_iff.
  destruct (lstrip s) as [|c r] eqn:E.
  - split; reflexivity.
  - rewrite (@rstrip_cons c r (@lstrip_head s c r E)). split; discriminate.
Qed.

Lemma contains_iff (s sub : str) :
  contains s sub = true <-> exists a b, s = a ++ sub ++ b.
Proof.
  induction s as [|c s IH]; cbn [contains].
  - rewrite orb_false_r, startswith_iff. split.
    + intros [t Ht]. exists [], t. exact Ht.
    + intros [a [b H]]. destruct a as [|x a]; [|discriminate H].
      exists b. exact H.
  - rewrite orb_true_iff, startswith_iff, IH. split.
    + intros [[t Ht] | [a [b H]]].
      * exists [], t. exact Ht.
      * exists (c :: a), b. simpl. f_equal. exact H.
    + intros [a [b H]]. destruct a as [|x a].
      * left. exists b. exact H.
      * right. injection H as _ H. exists a, b. exact H.
Qed.

(** ** What the hook does on every message *)

(** A line is dropped as a comment exactly when it is some whitespace
    followed by [#]: indented comments are dropped too, and what follows the
    [#] does not matter. *)
Theorem is_comment_iff (l : str) :
  is_comment l = true
  <-> exists ws rest : str,
        l = ws ++ py "#" ++ rest /\ forallb isspace ws = true.
Proof.
  unfold is_comment, strip. split.
  - intros H. destruct (lstrip_split l) as [ws [Hl Hws]].
    destruct (lstrip l) as [|c r] eqn:E; [discriminate H|].
    rewrite (@rstrip_cons c r (@lstrip_head l c r E)) in H.
    simpl in H. apply andb_prop in H as [Hc _]. apply N.eqb_eq in Hc.
    exists ws, r. subst c. split; assumption.
  - intros [ws [rest [Hl Hws]]]. subst l.
    rewrite lstrip_spaces by exact Hws.
    change (lstrip (py "#" ++ rest)) with (@cons char 35%N rest).
    rewrite (@rstrip_cons 35%N rest eq_refl).
    apply startswith_iff. exists (rstrip rest). reflexivity.
Qed.

(** The commit type test of line 79 holds exactly for the titles that begin
    with one of the eight types; nothing is asked of what follows the type. *)
Theorem has_commit_type_iff (title : str) :
  has_commit_type title = true
  <-> exists commit_type rest,
        In commit_type valid_commit_types /\ title = commit_type ++ rest.
Proof.
  unfold has_commit_type. rewrite existsb_exists. split.
  - intros [commit_type [Hin H]]. apply startswith_iff in H as [rest H].
    exists commit_type, rest. split; assumption.
  - intros [commit_type [rest [Hin H]]]. exists commit_type.
    split; [exact Hin|]. apply startswith_iff. exists rest. exact H.
Qed.

(** The hook rejects every commit message.  Whatever the file holds, the
    function ends in [sys.exit(1)], never returns to [main] and never fails
    on an index; it has written exactly one of four texts, and the report
    that the message has the required pattern is not one of them. *)
Theorem hook_rejects_every_message (file_lines : list str) :
  (exists fr, main file_lines initial = SystemExit 1 fr)
  /\ snd (script file_lines) = 1%Z
  /\ (fst (script file_lines) = [Colored ERROR lines_message]
      \/ fst (script file_lines) = [Colored WARNING title_message]
      \/ fst (script file_lines) = [Colored WARNING commit_type_message]
      \/ fst (script file_lines) = [Plain (py "zd ")]).
Proof.
  split; [|split].
  - unfold main, check_commit_msg_pattern.
    destruct (title_checks_then
                (fun commit_message => body_checks commit_message)
                file_lines initial) as [fr [E _]].
    exists fr. unfold bind at 1. rewrite E. reflexivity.
  - rewrite script_first_report. reflexivity.
  - rewrite script_first_report. cbn [fst]. unfold first_report.
    destruct (length (strip_comments file_lines) <? 4)%nat; [tauto|].
    destruct (50 <? length (nth 0 (strip_comments file_lines) []))%nat;
      [tauto|].
    destruct (has_commit_type (nth 0 (strip_comments file_lines) [])); tauto.
Qed.

(** Comment lines are invisible to the hook: a comment line added anywhere
    in the file changes neither the output nor the exit status. *)
Theorem comment_line_is_invisible (before after : list str) (c : str) :
  is_comment c = true ->
  script (before ++ c :: after) = script (before ++ after).
Proof.
  intros Hc. rewrite !script_first_report. unfold first_report, strip_comments.
  rewrite !filter_app. simpl filter. rewrite Hc. reflexivity.
Qed.

(** Only the title and the number of lines decide the outcome: two messages
    of at least four lines with the same first line get the same output,
    whatever their separator and body lines are. *)
Theorem body_is_never_looked_at (lines1 lines2 : list str) (title : str)
        (rest1 rest2 : list str) :
  strip_comments lines1 = title :: rest1 ->
  strip_comments lines2 = title :: rest2 ->
  4 <= length (title :: rest1) ->
  4 <= length (title :: rest2) ->
  script lines1 = script lines2.
Proof.
  intros H1 H2 L1 L2. rewrite !script_first_report.
  rewrite (first_report_long_message _ H1 L1).
  rewrite (first_report_long_message _ H2 L2). reflexivity.
Qed.

(** The title length is measured with the newline that ends the line: a
    title line [t] followed by a newline gets the length WARNING as soon as
    [t] has 50 characters, so at most 49 are accepted. *)
Theorem title_of_fifty_is_too_long (file_lines : list str) (t : str)
        (rest : list str) :
  strip_comments file_lines = (t ++ [LF]) :: rest ->
  4 <= length ((t ++ [LF]) :: rest) ->
  (script file_lines = ([Colored WARNING title_message], 1%Z)
   <-> 50 <= length t).
Proof.
  intros Hcm Hlen.
  rewrite script_first_report, (first_report_long_message _ Hcm Hlen).
  rewrite length_app. cbn [length].
  destruct (50 <? length t + 1)%nat eqn:E.
  - apply Nat.ltb_lt in E. split; [intros _; lia | reflexivity].
  - apply Nat.ltb_ge in E. split; [|lia].
    intros H. exfalso.
    destruct (has_commit_type (t ++ [LF])); vm_compute in H; discriminate H.
Qed.

(** ** The checks of the separator, the body and the story ID *)

Lemma body_loop_short (body : list str) (fr : Frame) :
  (forall l, In l body -> length l <= 72) ->
  exists fr1,
    for_in body (fun l =>
      when (72 <? length l)%nat (
        set_has_warning true ;;
        print_with_color wrap_message WARNING ;;
        sys_exit 1) ;;
      when (contains l (py "[#")) (set_has_story_id true)) fr
    = Normal tt fr1
    /\ stdout fr1 = stdout fr
    /\ has_warning fr1 = has_warning fr
    /\ has_story_id fr1
       = has_story_id fr || existsb (fun l => contains l (py "[#")) body.
Proof.
  revert fr. induction body as [|l body IH]; intros fr H.
  - exists fr. cbn. rewrite orb_false_r. repeat split; reflexivity.
  - cbn [for_in]. unfold bind at 1. unfold bind at 1.
    replace (72 <? length l)%nat with false
      by (symmetry; apply Nat.ltb_ge, H; left; reflexivity).
    cbn [when ret existsb].
    destruct (contains l (py "[#")) eqn:E; cbn [when ret set_has_story_id].
    + destruct (IH (with_has_story_id true fr)) as [fr1 [R [O [W S]]]].
      { intros l' Hl'. apply H. right. exact Hl'. }
      exists fr1. rewrite R, O, W, S. cbn.
      rewrite orb_true_r. repeat split; reflexivity.
    + destruct (IH fr) as [fr1 [R [O [W S]]]].
      { intros l' Hl'. apply H. right. exact Hl'. }
      exists fr1. rewrite R, O, W, S. repeat split; reflexivity.
Qed.

Lemma body_loop_long (body : list str) (fr : Frame) :
  (exists l, In l body /\ 72 < length l) ->
  exists fr1,
    for_in body (fun l =>
      when (72 <? length l)%nat (
        set_has_warning true ;;
        print_with_color wrap_message WARNING ;;
        sys_exit 1) ;;
      when (contains l (py "[#")) (set_has_story_id true)) fr
    = SystemExit 1 fr1
    /\ stdout fr1 = stdout fr ++ [Colored WARNING wrap_message].
Proof.
  revert fr. induction body as [|l body IH]; intros fr [l0 [Hin Hlong]].
  - destruct Hin.
  - cbn [for_in]. unfold bind at 1. unfold bind at 1.
    destruct (72 <? length l)%nat eqn:E; cbn [when ret].
    + eexists. split; reflexivity.
    + assert (Hrest : exists l1, In l1 body /\ 72 < length l1).
      { destruct Hin as [Heq|Hin].
        - subst l0. apply Nat.ltb_ge in E. lia.
        - exists l0. split; assumption. }
      destruct (contains l (py "[#")); cbn [when ret set_has_story_id].
      * destruct (IH (with_has_story_id true fr) Hrest) as [fr1 [R O]].
        exists fr1. rewrite R, O. split; reflexivity.
      * destruct (IH fr Hrest) as [fr1 [R O]].
        exists fr1. rewrite R, O. split; reflexivity.
Qed.

Lemma body_checks_blank (title second : str) (body : list str) (fr : Frame) :
  forallb isspace second = true ->
  body_checks (title :: second :: body) fr
  = match for_in body (fun l =>
            when (72 <? length l)%nat (
              set_has_warning true ;;
              print_with_color wrap_message WARNING ;;
              sys_exit 1) ;;
            when (contains l (py "[#")) (set_has_story_id true))
          (with_has_story_id false fr) with
    | Normal _ fr1 =>
        if has_story_id fr1
        then if has_warning fr1
             then Normal tt fr1
             else Normal tt (emit (Colored OK pattern_message) fr1)
        else SystemExit 1 (emit (Colored WARNING story_message) fr1)
    | SystemExit code fr1 => SystemExit code fr1
    | IndexError fr1 => IndexError fr1
    end.
Proof.
  intros Hblank. apply strip_nil_iff in Hblank.
  unfold body_checks. unfold bind at 1. cbn [index nth_error].
  rewrite Hblank. unfold bind at 1. cbn [negb when ret].
  unfold bind at 1. cbn [set_has_story_id]. cbn [skipn].
  unfold bind at 1.
  match goal with
  | |- context [for_in body ?f ?x] => destruct (for_in body f x) as [[] fr1|c fr1|fr1]
  end; try reflexivity.
  unfold bind at 1. cbn [get_has_story_id].
  unfold bind at 1.
  destruct (has_story_id fr1); cbn [negb when ret]; [|reflexivity].
  unfold bind at 1. cbn [get_has_warning].
  destruct (has_warning fr1); reflexivity.
Qed.

Lemma body_checks_nonblank (title second : str) (body : list str)
      (fr : Frame) :
  strip second <> [] ->
  body_checks (title :: second :: body) fr
  = SystemExit 1 (emit (Colored WARNING separator_message)
                       (with_has_warning true fr)).
Proof.
  intros Hsep. unfold body_checks. unfold bind at 1. cbn [index nth_error].
  destruct (strip second) as [|c r]; [contradiction | reflexivity].
Qed.

(** The second line has to be blank: as soon as it holds one character that
    is not whitespace, the WARNING about the empty line is the only thing
    written and the check leaves with status 1, whatever the body holds. *)
Theorem separator_must_be_blank (title second : str) (body : list str)
        (fr : Frame) :
  forallb isspace second = false ->
  body_checks (title :: second :: body) fr
  = SystemExit 1 (emit (Colored WARNING separator_message)
                       (with_has_warning true fr)).
Proof.
  intros Hsep. apply body_checks_nonblank. intros E.
  apply strip_nil_iff in E. rewrite E in Hsep. discriminate Hsep.
Qed.

(** With a blank second line, one body line of more than 72 characters, its
    newline counted, is enough for the WARNING about the wrapping; it is
    written once and the check leaves with status 1, also when the story ID
    is missing. *)
Theorem long_body_line_warns (title second : str) (body : list str)
        (fr : Frame) :
  forallb isspace second = true ->
  (exists l, In l body /\ 72 < length l) ->
  exists fr1,
    body_checks (title :: second :: body) fr = SystemExit 1 fr1
    /\ stdout fr1 = stdout fr ++ [Colored WARNING wrap_message].
Proof.
  intros Hblank Hlong. rewrite body_checks_blank by exact Hblank.
  destruct (@body_loop_long body (with_has_story_id false fr) Hlong)
    as [fr1 [R O]].
  exists fr1. rewrite R. split; [reflexivity | exact O].
Qed.

(** With a blank second line and no body line over 72 characters, a body in
    which no line holds ["[#"] gets the WARNING about the story ID and the
    check leaves with status 1.  An empty body is such a body. *)
Theorem missing_story_id_warns (title second : str) (body : list str)
        (fr : Frame) :
  forallb isspace second = true ->
  (forall l, In l body -> length l <= 72) ->
  (forall l, In l body -> contains l (py "[#") = false) ->
  exists fr1,
    body_checks (title :: second :: body) fr = SystemExit 1 fr1
    /\ stdout fr1 = stdout fr ++ [Colored WARNING story_message].
Proof.
  intros Hblank Hshort Hnone. rewrite body_checks_blank by exact Hblank.
  destruct (@body_loop_short body (with_has_story_id false fr) Hshort)
    as [fr1 [R [O [W S]]]].
  rewrite R. cbn [has_story_id with_has_story_id orb] in S.
  replace (existsb (fun l => contains l (py "[#")) body) with false in S.
  - rewrite S. eexists. split; [reflexivity|].
    cbn. rewrite O. reflexivity.
  - symmetry. apply not_true_is_false. intros H.
    apply existsb_exists in H as [l [Hin Hl]].
    rewrite (Hnone l Hin) in Hl. discriminate Hl.
Qed.

(** The checks of lines 127 to 153 let a message through exactly when its
    second line is blank, no body line has more than 72 characters and some
    body line holds ["[#"]; nothing is asked of what follows the ["[#"].
    They then report that the message has the required pattern, unless a
    warning had been flagged before. *)
Theorem body_checks_accept_iff (title second : str) (body : list str)
        (fr : Frame) :
  (returns (body_checks (title :: second :: body) fr) = true
   <-> forallb isspace second = true
       /\ (forall l, In l body -> length l <= 72)
       /\ (exists l a b, In l body /\ l = a ++ py "[#" ++ b))
  /\ (returns (body_checks (title :: second :: body) fr) = true ->
      exists fr1,
        body_checks (title :: second :: body) fr = Normal tt fr1
        /\ stdout fr1
           = stdout fr
             ++ (if has_warning fr then []
                 else [Colored OK pattern_message])).
Proof.
  assert (Accept : forallb isspace second = true ->
                   (forall l, In l body -> length l <= 72) ->
                   existsb (fun l => contains l (py "[#")) body = true ->
                   exists fr1,
                     body_checks (title :: second :: body) fr = Normal tt fr1
                     /\ stdout fr1
                        = stdout fr
                          ++ (if has_warning fr then []
                              else [Colored OK pattern_message])).
  { intros Hblank Hshort Hstory. rewrite body_checks_blank by exact Hblank.
    destruct (@body_loop_short body (with_has_story_id false fr) Hshort)
      as [fr1 [R [O [W S]]]].
    rewrite R.
    cbn [has_story_id has_warning stdout with_has_story_id orb] in S, O, W.
    rewrite Hstory in S. rewrite S, W.
    destruct (has_warning fr); eexists; (split; [reflexivity|]).
    - rewrite O, app_nil_r. reflexivity.
    - cbn. rewrite O. reflexivity. }
  assert (Cases : returns (body_checks (title :: second :: body) fr) = true ->
                  forallb isspace second = true
                  /\ (forall l, In l body -> length l <= 72)
                  /\ existsb (fun l => contains l (py "[#")) body = true).
  { intros Hret.
    destruct (forallb isspace second) eqn:Hblank.
    2:{ rewrite body_checks_nonblank in Hret; [discriminate Hret|].
        intros E. apply strip_nil_iff in E. rewrite E in Hblank.
        discriminate Hblank. }
    rewrite body_checks_blank in Hret by exact Hblank.
    destruct (existsb (fun l => (72 <? length l)%nat) body) eqn:Hlong.
    { apply existsb_exists in Hlong as [l [Hin Hl]].
      apply Nat.ltb_lt in Hl.
      destruct (@body_loop_long body (with_has_story_id false fr))
        as [fr1 [R _]]; [exists l; split; assumption|].
      rewrite R in Hret. discriminate Hret. }
    assert (Hshort : forall l, In l body -> length l <= 72).
    { intros l Hin. apply Nat.ltb_ge.
      destruct (72 <? length l)%nat eqn:E; [|reflexivity].
      assert (X : existsb (fun l => (72 <? length l)%nat) body = true)
        by (apply existsb_exists; exists l; split; assumption).
      rewrite X in Hlong. discriminate Hlong. }
    split; [reflexivity|]. split; [exact Hshort|].
    destruct (existsb (fun l => contains l (py "[#")) body) eqn:Hstory;
      [reflexivity|].
    destruct (@body_loop_short body (with_has_story_id false fr) Hshort)
      as [fr1 [R [_ [_ S]]]].
    rewrite R in Hret. cbn [has_story_id with_has_story_id orb] in S.
    rewrite Hstory in S. rewrite S in Hret. discriminate Hret. }
  split.
  - split.
    + intros Hret. destruct (Cases Hret) as [Hb [Hs Hst]].
      split; [exact Hb|]. split; [exact Hs|].
      apply existsb_exists in Hst as [l [Hin Hl]].
      apply contains_iff in Hl as [a [b Hl]]. exists l, a, b.
      split; assumption.
    + intros [Hb [Hs [l [a [b [Hin Hl]]]]]].
      destruct (Accept Hb Hs) as [fr1 [R _]].
      * apply existsb_exists. exists l. split; [exact Hin|].
        apply contains_iff. exists a, b. exact Hl.
      * rewrite R. reflexivity.
  - intros Hret. destruct (Cases Hret) as [Hb [Hs Hst]].
    exact (Accept Hb Hs Hst).
Qed.

(** ** The two loops over the issue trackers, for any title *)

Lemma for_in_ext (A : Type) (xs : list A) (f g : A -> Hook unit)
      (fr : Frame) :
  (forall x fr', f x fr' = g x fr') ->
  for_in xs f fr = for_in xs g fr.
Proof.
  intros H. revert fr. induction xs as [|x xs IH]; intros fr.
  - reflexivity.
  - cbn [for_in]. unfold bind. rewrite H.
    destruct (g x fr); [apply IH | reflexivity | reflexivity].
Qed.

Lemma tool_loop_spec (tools : list str) (title : str) (fr : Frame) :
  for_in tools (fun tool =>
    when (startswith title tool) (
      set_has_warning true ;;
      print_with_color commit_type_message WARNING ;;
      sys_exit 1)) fr
  = if existsb (fun tool => startswith title tool) tools
    then SystemExit 1 (emit (Colored WARNING commit_type_message)
                            (with_has_warning true fr))
    else Normal tt fr.
Proof.
  induction tools as [|tool tools IH].
  - reflexivity.
  - cbn [for_in existsb]. unfold bind at 1.
    destruct (startswith title tool); cbn [when ret orb].
    + reflexivity.
    + exact IH.
Qed.

Lemma reference_loop_exit (tokens : list str) (title : str) (fr : Frame) :
  existsb (fun tok =>
             startswith title tok
             && negb (isdigit digit (skipn (length tok) title))) tokens
  = true ->
  exists fr1,
    for_in tokens (fun tool_with_suffix =>
      set_tool_with_suffix (Some tool_with_suffix) ;;
      when (startswith title tool_with_suffix) (
        when (negb (isdigit digit (skipn (length tool_with_suffix) title))) (
          set_has_warning true ;;
          print_with_color tracker_reference_message WARNING ;;
          sys_exit 1))) fr
    = SystemExit 1 fr1
    /\ stdout fr1 = stdout fr ++ [Colored WARNING tracker_reference_message].
Proof.
  revert fr. induction tokens as [|tok tokens IH]; intros fr H.
  - discriminate H.
  - cbn [for_in existsb] in *. unfold bind at 1. unfold bind at 1.
    cbn [set_tool_with_suffix].
    destruct (startswith title tok); cbn [when ret andb] in *.
    + destruct (negb (isdigit digit (skipn (length tok) title)));
        cbn [when ret orb] in *.
      * eexists. split; reflexivity.
      * destruct (IH (with_tool_with_suffix (Some tok) fr) H) as [fr1 [R O]].
        exists fr1. split; [exact R | exact O].
    + destruct (IH (with_tool_with_suffix (Some tok) fr) H) as [fr1 [R O]].
      exists fr1. split; [exact R | exact O].
Qed.

Lemma reference_loop_pass (tokens : list str) (title : str) (fr : Frame) :
  existsb (fun tok =>
             startswith title tok
             && negb (isdigit digit (skipn (length tok) title))) tokens
  = false ->
  for_in tokens (fun tool_with_suffix =>
    set_tool_with_suffix (Some tool_with_suffix) ;;
    when (startswith title tool_with_suffix) (
      when (negb (isdigit digit (skipn (length tool_with_suffix) title))) (
        set_has_warning true ;;
        print_with_color tracker_reference_message WARNING ;;
        sys_exit 1))) fr
  = Normal tt
      (with_tool_with_suffix
         (last (List.map Some tokens)
               (valid_issue_tracker_tool_with_suffix fr)) fr).
Proof.
  intros H.
  rewrite for_in_ext with
    (g := fun tok =>
            set_tool_with_suffix (Some tok) ;;
            when (startswith title tok
                  && negb (isdigit digit (skipn (length tok) title))) (
              set_has_warning true ;;
              print_with_color tracker_reference_message WARNING ;;
              sys_exit 1)).
  - apply for_in_assign_when_false
      with (cond := fun tok =>
                      startswith title tok
                      && negb (isdigit digit (skipn (length tok) title))).
    intros tok Hin.
    destruct (startswith title tok
              && negb (isdigit digit (skipn (length tok) title))) eqn:E;
      [|reflexivity].
    assert (X : existsb (fun tok =>
                  startswith title tok
                  && negb (isdigit digit (skipn (length tok) title))) tokens
                = true)
      by (apply existsb_exists; exists tok; split; assumption).
    rewrite X in H. discriminate H.
  - intros tok fr'. unfold bind. cbn [set_tool_with_suffix].
    destruct (startswith title tok); reflexivity.
Qed.

Lemma prefixes_comparable (s a b : str) :
  startswith s a = true -> startswith s b = true ->
  startswith a b = true \/ startswith b a = true.
Proof.
  revert s b. induction a as [|x a IH]; intros s b Ha Hb.
  - right. destruct b; reflexivity.
  - destruct b as [|y b]; [left; reflexivity|].
    destruct s as [|c s]; [discriminate Ha|].
    cbn [startswith] in *.
    apply andb_prop in Ha as [Hx Ha]. apply andb_prop in Hb as [Hy Hb].
    apply N.eqb_eq in Hx, Hy. subst x y. rewrite N.eqb_refl. cbn [andb].
    exact (IH s b Ha Hb).
Qed.

Lemma prefix_of_same_length (a b : str) :
  startswith a b = true -> length a = length b -> a = b.
Proof.
  intros H L. apply startswith_iff in H as [t H]. subst a.
  rewrite length_app in L. destruct t as [|c t].
  - apply app_nil_r.
  - cbn [length] in L. lia.
Qed.

Lemma tokens_incomparable :
  forallb (fun a =>
             forallb (fun b =>
                        negb (startswith a b) || (length a =? length b)%nat)
                     valid_issue_tracker_tools_with_suffixes)
          valid_issue_tracker_tools_with_suffixes = true.
Proof. vm_compute. reflexivity. Qed.

(** The loop of lines 90 to 95, run on any title, leaves with the WARNING
    about the commit type exactly when the title begins with the full name of
    one of the six trackers; otherwise it changes nothing. *)
Theorem tracker_tool_loop_iff (title : str) (fr : Frame) :
  (returns (tracker_tool_loop title fr) = false
   <-> exists tool rest,
         In tool valid_issue_tracker_tools /\ title = tool ++ rest)
  /\ (returns (tracker_tool_loop title fr) = false ->
      tracker_tool_loop title fr
      = SystemExit 1 (emit (Colored WARNING commit_type_message)
                           (with_has_warning true fr)))
  /\ (returns (tracker_tool_loop title fr) = true ->
      tracker_tool_loop title fr = Normal tt fr).
Proof.
  unfold tracker_tool_loop. rewrite tool_loop_spec.
  destruct (existsb (fun tool => startswith title tool)
                    valid_issue_tracker_tools) eqn:E.
  - split; [|split]; try reflexivity; try discriminate.
    split; [intros _|reflexivity].
    apply existsb_exists in E as [tool [Hin H]].
    apply startswith_iff in H as [rest H]. exists tool, rest.
    split; assumption.
  - split; [|split]; try reflexivity; try discriminate.
    split; [discriminate|].
    intros [tool [rest [Hin H]]]. exfalso.
    assert (X : existsb (fun tool => startswith title tool)
                        valid_issue_tracker_tools = true).
    { apply existsb_exists. exists tool. split; [exact Hin|].
      apply startswith_iff. exists rest. exact H. }
    rewrite X in E. discriminate E.
Qed.

Lemma incomparable_tokens_equal (a b : str) :
  In a valid_issue_tracker_tools_with_suffixes ->
  In b valid_issue_tracker_tools_with_suffixes ->
  startswith a b = true ->
  a = b.
Proof.
  intros Ha Hb H.
  pose proof tokens_incomparable as D.
  rewrite forallb_forall in D. specialize (D a Ha).
  rewrite forallb_forall in D. specialize (D b Hb).
  rewrite H in D. cbn [negb orb] in D. apply Nat.eqb_eq in D.
  apply prefix_of_same_length; assumption.
Qed.

(** The 60 tracker tokens are unambiguous: a title begins with at most one
    of them. *)
Theorem tokens_prefix_free (title a b : str) :
  In a valid_issue_tracker_tools_with_suffixes ->
  In b valid_issue_tracker_tools_with_suffixes ->
  startswith title a = true ->
  startswith title b = true ->
  a = b.
Proof.
  intros Ha Hb Pa Pb.
  destruct (prefixes_comparable _ _ _ Pa Pb) as [H|H].
  - apply incomparable_tokens_equal; assumption.
  - symmetry. apply incomparable_tokens_equal; assumption.
Qed.

(** The loop of lines 109 to 116, run on a title that begins with a tracker
    token, falls through exactly when what follows the token is a non-empty
    run of digits; otherwise it writes the WARNING about the tracker code
    once and leaves with status 1.  A token with nothing after it is
    refused. *)
Theorem reference_needs_digits (tok rest : str) (fr : Frame) :
  In tok valid_issue_tracker_tools_with_suffixes ->
  (isdigit digit rest = true ->
   tracker_reference_loop (tok ++ rest) fr
   = Normal tt (with_tool_with_suffix (Some (py "zd ")) fr))
  /\ (isdigit digit rest = false ->
      exists fr1,
        tracker_reference_loop (tok ++ rest) fr = SystemExit 1 fr1
        /\ stdout fr1
           = stdout fr ++ [Colored WARNING tracker_reference_message]).
Proof.
  intros Hin.
  assert (Hpre : startswith (tok ++ rest) tok = true)
    by (apply startswith_iff; exists rest; reflexivity).
  assert (Hskip : skipn (length tok) (tok ++ rest) = rest).
  { rewrite skipn_app, skipn_all, Nat.sub_diag. reflexivity. }
  unfold tracker_reference_loop. split; intros Hd.
  - unfold bind at 1. cbn [set_tool_with_suffix].
    rewrite reference_loop_pass.
    + destruct fr; reflexivity.
    + apply not_true_is_false. intros H.
      apply existsb_exists in H as [tok' [Hin' H]].
      apply andb_prop in H as [Hpre' Hnd].
      assert (tok' = tok).
      { destruct (prefixes_comparable _ _ _ Hpre' Hpre) as [P|P].
        - apply incomparable_tokens_equal; assumption.
        - symmetry. apply incomparable_tokens_equal; assumption. }
      subst tok'. rewrite Hskip, Hd in Hnd. discriminate Hnd.
  - unfold bind at 1. cbn [set_tool_with_suffix].
    destruct (@reference_loop_exit valid_issue_tracker_tools_with_suffixes
                (tok ++ rest) (with_tool_with_suffix None fr))
      as [fr1 [R O]].
    + apply existsb_exists. exists tok. split; [exact Hin|].
      rewrite Hpre, Hskip, Hd. reflexivity.
    + exists fr1. split; [exact R | exact O].
Qed.

(** A title line as [readlines()] returns it, with its newline, never passes
    the loop of lines 109 to 116 once it begins with a tracker token: the
    newline is not a digit, so the WARNING is written whatever the ticket
    number is. *)
Theorem reference_line_with_newline_warns (tok rest : str) (fr : Frame) :
  digit LF = false ->
  In tok valid_issue_tracker_tools_with_suffixes ->
  exists fr1,
    tracker_reference_loop (tok ++ rest ++ [LF]) fr = SystemExit 1 fr1
    /\ stdout fr1 = stdout fr ++ [Colored WARNING tracker_reference_message].
Proof.
  intros HLF Hin. unfold tracker_reference_loop.
  unfold bind at 1. cbn [set_tool_with_suffix].
  destruct (@reference_loop_exit valid_issue_tracker_tools_with_suffixes
              (tok ++ rest ++ [LF]) (with_tool_with_suffix None fr))
    as [fr1 [R O]].
  - apply existsb_exists. exists tok. split; [exact Hin|].
    replace (startswith (tok ++ rest ++ [LF]) tok) with true
      by (symmetry; apply startswith_iff; exists (rest ++ [LF]); reflexivity).
    rewrite skipn_app, skipn_all, Nat.sub_diag. cbn [skipn app andb].
    unfold isdigit. destruct (rest ++ [LF]) eqn:E; [reflexivity|].
    rewrite <- E, forallb_app. cbn [forallb]. rewrite HLF, andb_false_r.
    reflexivity.
  - exists fr1. split; [exact R | exact O].
Qed.

Lemma str_eqb_eq (a b : str) : str_eqb a b = true -> a = b.
Proof.
  revert b. induction a as [|x a IH]; intros [|y b] H;
    try discriminate H; [reflexivity|].
  cbn [str_eqb] in H. apply andb_prop in H as [Hx Hab].
  apply N.eqb_eq in Hx. apply IH in Hab. subst. reflexivity.
Qed.

Lemma in_by_str_eqb (x : str) (xs : list str) :
  existsb (str_eqb x) xs = true -> In x xs.
Proof.
  intros H. apply existsb_exists in H as [y [Hin Hy]].
  apply str_eqb_eq in Hy. subst y. exact Hin.
Qed.

(** ** The outcome of the hook, and the text of its reports *)

(** Which of its four texts the hook writes is decided by the number of
    lines left after the comments are removed and by the first of them: the
    ERROR for fewer than four lines; else the length WARNING for a first line
    of more than 50 characters; else the commit type WARNING for a first line
    that begins with none of the types; else the token ["zd "]. *)
Theorem outcome_classification (file_lines : list str) :
  (script file_lines = ([Colored ERROR lines_message], 1%Z)
   <-> length (strip_comments file_lines) < 4)
  /\ (script file_lines = ([Colored WARNING title_message], 1%Z)
      <-> 4 <= length (strip_comments file_lines)
          /\ 50 < length (nth 0 (strip_comments file_lines) []))
  /\ (script file_lines = ([Colored WARNING commit_type_message], 1%Z)
      <-> 4 <= length (strip_comments file_lines)
          /\ length (nth 0 (strip_comments file_lines) []) <= 50
          /\ has_commit_type (nth 0 (strip_comments file_lines) []) = false)
  /\ (script file_lines = ([Plain (py "zd ")], 1%Z)
      <-> 4 <= length (strip_comments file_lines)
          /\ length (nth 0 (strip_comments file_lines) []) <= 50
          /\ has_commit_type (nth 0 (strip_comments file_lines) []) = true).
Proof.
  rewrite script_first_report. unfold first_report.
  destruct (length (strip_comments file_lines) <? 4)%nat eqn:L;
    [apply Nat.ltb_lt in L | apply Nat.ltb_ge in L].
  2: destruct (50 <? length (nth 0 (strip_comments file_lines) []))%nat eqn:T;
    [apply Nat.ltb_lt in T | apply Nat.ltb_ge in T].
  3: destruct (has_commit_type (nth 0 (strip_comments file_lines) [])) eqn:H.
  all: repeat split; intros; try lia; try assumption; try reflexivity;
    try match goal with
        | E : (_, _) = (_, _) |- _ =>
            solve [discriminate E | vm_compute in E; discriminate E]
        | E : _ /\ _ |- _ => solve [destruct E as [? [? ?]]; congruence
                                   | destruct E as [? ?]; lia]
        end.
Qed.

(** The colour of every level is found: the lookup [Bcolors[level]] never
    fails.  The text of a coloured line determines the level and the message
    it was printed for, however the level is spelt in the label. *)
Theorem colored_text_injective (level_text : Level -> str) :
  (forall message level, colored_text level_text message level <> None)
  /\ (forall message1 level1 message2 level2,
         colored_text level_text message1 level1
         = colored_text level_text message2 level2 ->
         level1 = level2 /\ message1 = message2).
Proof.
  split.
  - intros message level. destruct level; discriminate.
  - intros message1 level1 message2 level2 H.
    destruct level1, level2; vm_compute in H;
      try discriminate H;
      (split; [reflexivity|]);
      injection H as H; apply app_inv_head in H;
      apply app_inv_tail in H; exact H.
Qed.

End Validator.

(** ** The claims at concrete messages *)

Lemma tracker_loop_end_exits_witness :
  script ascii_digit example_login = ([Plain (py "zd ")], 1%Z).
Proof.
  apply (proj1 (@tracker_loop_end_exits ascii_digit example_login
                  (line "feat: add login")
                  [line ""; line "implements oauth [#123]"; line ""]
                  eq_refl
                  ltac:(simpl; lia) ltac:(vm_compute; lia) eq_refl)).
Defined.

Lemma short_message_error_witness :
  script ascii_digit [line "# a comment"; line "feat: x"; line ""; line "body"]
  = ([Colored ERROR lines_message], 1%Z).
Proof.
  apply (proj1 (@short_message_error ascii_digit
                  [line "# a comment"; line "feat: x"; line ""; line "body"]
                  ltac:(vm_compute; lia))).
Defined.

Lemma missing_commit_type_warning_witness :
  script ascii_digit [line "gh#456"; line ""; line "body [#1]"; line ""]
  = ([Colored WARNING commit_type_message], 1%Z).
Proof.
  apply (proj1 (missing_commit_type_warning ascii_digit)
               [line "gh#456"; line ""; line "body [#1]"; line ""]
               (line "gh#456") [line ""; line "body [#1]"; line ""]).
  - reflexivity.
  - simpl. lia.
  - vm_compute. lia.
  - reflexivity.
Defined.

Lemma title_length_warning_iff_witness :
  script ascii_digit
         [line "feat: a title that runs on for more than fifty characters";
          line ""; line "body [#1]"; line ""]
  = ([Colored WARNING title_message], 1%Z).
Proof.
  apply (proj1 (proj2 (@title_length_warning_iff ascii_digit
                  [line "feat: a title that runs on for more than fifty characters";
                   line ""; line "body [#1]"; line ""]
                  (line "feat: a title that runs on for more than fifty characters")
                  [line ""; line "body [#1]"; line ""]
                  eq_refl ltac:(simpl; lia)))).
  vm_compute. lia.
Defined.

(** A title of exactly fifty characters, followed by its newline, in a
    message of four lines: the title is not longer than 50 characters, and
    the WARNING about the title length is what the hook prints. *)
Lemma title_of_fifty_is_warned :
  length (py "feat: 0123456789012345678901234567890123456789abcd") = 50
  /\ strip_comments
       [line "feat: 0123456789012345678901234567890123456789abcd";
        line ""; line "body [#1]"; line ""]
     = [line "feat: 0123456789012345678901234567890123456789abcd";
        line ""; line "body [#1]"; line ""]
  /\ script ascii_digit
            [line "feat: 0123456789012345678901234567890123456789abcd";
             line ""; line "body [#1]"; line ""]
     = ([Colored WARNING title_message], 1%Z).
Proof. split; [|split]; vm_compute; reflexivity. Qed.

Lemma tracker_warnings_unreachable_witness :
  tracker_tool_loop (line "feat: add login") initial = Normal tt initial.
Proof.
  apply (proj1 (tracker_warnings_unreachable ascii_digit)
               (line "feat: add login") initial).
  reflexivity.
Defined.

(** ** The further properties at concrete messages *)

Lemma comment_line_is_invisible_witness :
  script ascii_digit
         ([line "feat: add login"] ++ line "   # written by the editor"
          :: [line ""; line "implements oauth [#123]"; line ""])
  = script ascii_digit
           ([line "feat: add login"]
            ++ [line ""; line "implements oauth [#123]"; line ""]).
Proof.
  apply (@comment_line_is_invisible ascii_digit
           [line "feat: add login"]
           [line ""; line "implements oauth [#123]"; line ""]
           (line "   # written by the editor")).
  vm_compute. reflexivity.
Defined.

Lemma body_is_never_looked_at_witness :
  script ascii_digit example_login
  = script ascii_digit
           [line "feat: add login"; line "no blank line"; line "x"; line "y"].
Proof.
  apply (@body_is_never_looked_at ascii_digit example_login
           [line "feat: add login"; line "no blank line"; line "x"; line "y"]
           (line "feat: add login")
           [line ""; line "implements oauth [#123]"; line ""]
           [line "no blank line"; line "x"; line "y"]).
  - reflexivity.
  - reflexivity.
  - simpl. lia.
  - simpl. lia.
Defined.

Lemma title_of_fifty_is_too_long_witness :
  script ascii_digit
         [line "feat: 0123456789012345678901234567890123456789abcd";
          line ""; line "body [#1]"; line ""]
  = ([Colored WARNING title_message], 1%Z)
  <-> 50 <= length (py "feat: 0123456789012345678901234567890123456789abcd").
Proof.
  apply (@title_of_fifty_is_too_long ascii_digit
           [line "feat: 0123456789012345678901234567890123456789abcd";
            line ""; line "body [#1]"; line ""]
           (py "feat: 0123456789012345678901234567890123456789abcd")
           [line ""; line "body [#1]"; line ""]).
  - reflexivity.
  - simpl. lia.
Defined.

Lemma separator_must_be_blank_witness :
  body_checks example_fix_bug initial
  = SystemExit 1 (emit (Colored WARNING separator_message)
                       (with_has_warning true initial)).
Proof.
  apply (@separator_must_be_blank (line "fix bug") (line "body text")
           [line ""; line ""] initial).
  vm_compute. reflexivity.
Defined.

Lemma long_body_line_warns_witness :
  exists fr1,
    body_checks
      [line "fix: wrap"; line "";
       line "a body line that goes on and on and on, well past the seventy-two characters";
       line ""] initial
    = SystemExit 1 fr1
    /\ stdout fr1 = stdout initial ++ [Colored WARNING wrap_message].
Proof.
  apply (@long_body_line_warns (line "fix: wrap") (line "")
           [line "a body line that goes on and on and on, well past the seventy-two characters";
            line ""] initial).
  - vm_compute. reflexivity.
  - exists (line "a body line that goes on and on and on, well past the seventy-two characters").
    split; [left; reflexivity | vm_compute; lia].
Defined.

Lemma missing_story_id_warns_witness :
  exists fr1,
    body_checks [line "fix: story"; line ""; line "no reference here"; line ""]
                initial
    = SystemExit 1 fr1
    /\ stdout fr1 = stdout initial ++ [Colored WARNING story_message].
Proof.
  apply (@missing_story_id_warns (line "fix: story") (line "")
           [line "no reference here"; line ""] initial).
  - vm_compute. reflexivity.
  - intros l [H|[H|[]]]; subst l; vm_compute; lia.
  - intros l [H|[H|[]]]; subst l; vm_compute; reflexivity.
Defined.

Lemma body_checks_accept_iff_witness :
  exists fr1,
    body_checks example_login initial = Normal tt fr1
    /\ stdout fr1
       = stdout initial
         ++ (if has_warning initial then []
             else [Colored OK pattern_message]).
Proof.
  apply (proj2 (@body_checks_accept_iff (line "feat: add login") (line "")
                  [line "implements oauth [#123]"; line ""] initial)).
  vm_compute. reflexivity.
Defined.

Lemma tracker_tool_loop_iff_witness :
  tracker_tool_loop (line "github: 12") initial
  = SystemExit 1 (emit (Colored WARNING commit_type_message)
                       (with_has_warning true initial)).
Proof.
  apply (proj1 (proj2 (@tracker_tool_loop_iff (line "github: 12") initial))).
  vm_compute. reflexivity.
Defined.

Lemma tokens_prefix_free_witness : py "gh#" = py "gh#".
Proof.
  apply (@tokens_prefix_free (line "gh#456") (py "gh#") (py "gh#")).
  - apply in_by_str_eqb. vm_compute. reflexivity.
  - apply in_by_str_eqb. vm_compute. reflexivity.
  - vm_compute. reflexivity.
  - vm_compute. reflexivity.
Defined.

Lemma reference_needs_digits_witness :
  tracker_reference_loop ascii_digit (py "gh#" ++ py "456") initial
  = Normal tt (with_tool_with_suffix (Some (py "zd ")) initial).
Proof.
  apply (proj1 (@reference_needs_digits ascii_digit (py "gh#") (py "456")
                  initial
                  ltac:(apply in_by_str_eqb; vm_compute; reflexivity))).
  vm_compute. reflexivity.
Defined.

Lemma reference_line_with_newline_warns_witness :
  exists fr1,
    tracker_reference_loop ascii_digit (py "gh#" ++ py "456" ++ [LF]) initial
    = SystemExit 1 fr1
    /\ stdout fr1
       = stdout initial ++ [Colored WARNING tracker_reference_message].
Proof.
  apply (@reference_line_with_newline_warns ascii_digit (py "gh#") (py "456")
           initial).
  - vm_compute. reflexivity.
  - apply in_by_str_eqb. vm_compute. reflexivity.
Defined.

